(** * Verification of the signup cleaning pipeline ([cleanup.py])

    The program reads a table of signups, standardizes the signup dates,
    resolves duplicate emails, validates the remaining records and splits
    the table into a clean and a quarantined part.  This development embeds
    [clean_signup_data] as executable Rocq functions and proves properties of
    the classification it computes.

    Text is modelled as [string] (ASCII); a cell read from the sheet is
    either blank ([NaN]) or text.  Row labels are positions [0 .. n-1], as
    [pd.read_excel] gives them. *)

From Stdlib Require Import String Ascii List Bool Arith PeanoNat ZArith Lia Permutation
  Sorted.
Import ListNotations.
Open Scope string_scope.
Open Scope list_scope.
Open Scope nat_scope.

(** ** Python string operations used by the pipeline *)
Module PyStr.

(** [c.isspace()] on ASCII: TAB..CR, FS..US and the space. *)
Definition isspace (c : ascii) : bool :=
  let n := nat_of_ascii c in
  ((9 <=? n) && (n <=? 13)) || ((28 <=? n) && (n <=? 32)).

Fixpoint lstrip (s : string) : string :=
  match s with
  | EmptyString => EmptyString
  | String c s' => if isspace c then lstrip s' else s
  end.

Fixpoint rstrip (s : string) : string :=
  match s with
  | EmptyString => EmptyString
  | String c s' =>
      let r := rstrip s' in
      if isspace c && String.eqb r "" then "" else String c r
  end.

(** [s.strip()] *)
Definition strip (s : string) : string := rstrip (lstrip s).

Definition lower_char (c : ascii) : ascii :=
  let n := nat_of_ascii c in
  if (65 <=? n) && (n <=? 90) then ascii_of_nat (n + 32) else c.

(** [s.lower()] *)
Fixpoint lower (s : string) : string :=
  match s with
  | EmptyString => EmptyString
  | String c s' => String (lower_char c) (lower s')
  end.

(** [sub in s] for strings. *)
Fixpoint contains (sub s : string) : bool :=
  String.prefix sub s ||
  match s with
  | EmptyString => false
  | String _ s' => contains sub s'
  end.

(** [s.split(sep)] for a one-character separator. *)
Fixpoint split (sep : ascii) (s : string) : list string :=
  match s with
  | EmptyString => [""]
  | String c s' =>
      if Ascii.eqb c sep then "" :: split sep s'
      else match split sep s' with
           | [] => [String c ""]
           | h :: t => String c h :: t
           end
  end.

(** [x in l] for a list of strings. *)
Definition in_list (x : string) (l : list string) : bool :=
  existsb (String.eqb x) l.

(** [not s]: the empty string is falsy. *)
Definition is_empty (s : string) : bool := String.eqb s "".

End PyStr.

(** ** Calendar dates, [strftime('%Y-%m-%d')] and [strptime(_, '%Y-%m-%d')] *)
Module PyDate.

Local Open Scope Z_scope.

Record date := mkDate { year : Z; month : Z; day : Z }.

Definition is_leap (y : Z) : bool :=
  ((y mod 4 =? 0) && negb (y mod 100 =? 0)) || (y mod 400 =? 0).

Definition days_in_month (y m : Z) : Z :=
  match m with
  | 2 => if is_leap y then 29 else 28
  | 4 | 6 | 9 | 11 => 30
  | _ => 31
  end.

(** Dates a [Timestamp] can hold always have a four-digit year and are
    real calendar days. *)
Definition valid_date (d : date) : bool :=
  (1000 <=? year d) && (year d <=? 9999) &&
  (1 <=? month d) && (month d <=? 12) &&
  (1 <=? day d) && (day d <=? days_in_month (year d) (month d)).

Definition digit_char (n : Z) : ascii := ascii_of_N (Z.to_N (48 + n)).

Definition digit_val (c : ascii) : option Z :=
  let n := Z.of_N (N_of_ascii c) in
  if (48 <=? n) && (n <=? 57) then Some (n - 48) else None.

Definition pad2 (n : Z) (rest : string) : string :=
  String (digit_char (n / 10 mod 10)) (String (digit_char (n mod 10)) rest).

Definition pad4 (n : Z) (rest : string) : string :=
  String (digit_char (n / 1000 mod 10))
    (String (digit_char (n / 100 mod 10)) (pad2 n rest)).

(** [d.strftime('%Y-%m-%d')] *)
Definition strftime (d : date) : string :=
  pad4 (year d) (String "-" (pad2 (month d) (String "-" (pad2 (day d) "")))).

Definition num2 (a b : ascii) : option Z :=
  match digit_val a, digit_val b with
  | Some x, Some y => Some (10 * x + y)
  | _, _ => None
  end.

Definition num4 (a b c e : ascii) : option Z :=
  match num2 a b, num2 c e with
  | Some x, Some y => Some (100 * x + y)
  | _, _ => None
  end.

(** A month or day field: one digit, or two digits; the day may also be a
    space followed by a digit. *)
Definition field (spaced : bool) (cs : list ascii) : option Z :=
  match cs with
  | [a] => digit_val a
  | [a; b] =>
      if spaced && Ascii.eqb a " " then digit_val b else num2 a b
  | _ => None
  end.

Definition is_dash (c : ascii) : bool := Ascii.eqb c "-".

(** Splits [MM-DD] (either field possibly one character) at the dash. *)
Definition month_day (cs : list ascii) : option (Z * Z) :=
  let mk m d :=
    match field false m, field true d with
    | Some x, Some y => Some (x, y)
    | _, _ => None
    end in
  match cs with
  | [a; s; c] => if is_dash s then mk [a] [c] else None
  | [a; b; c; e] =>
      if is_dash b then mk [a] [c; e]
      else if is_dash c then mk [a; b] [e] else None
  | [a; b; s; c; e] => if is_dash s then mk [a; b] [c; e] else None
  | _ => None
  end.

(** [datetime.strptime(s, '%Y-%m-%d')]; [None] stands for the [ValueError]
    raised on text that does not match the format or is no calendar day. *)
Definition strptime (s : string) : option date :=
  match list_ascii_of_string s with
  | y1 :: y2 :: y3 :: y4 :: s1 :: rest =>
      if is_dash s1 then
        match num4 y1 y2 y3 y4, month_day rest with
        | Some y, Some (m, d) =>
            if (1 <=? y) && (1 <=? m) && (m <=? 12) &&
               (1 <=? d) && (d <=? days_in_month y m)
            then Some (mkDate y m d) else None
        | _, _ => None
        end
      else None
  | _ => None
  end.

(** [a < b] on dates (the time of day is always midnight here). *)
Definition date_ltb (a b : date) : bool :=
  (year a <? year b) ||
  ((year a =? year b) &&
   ((month a <? month b) || ((month a =? month b) && (day a <? day b)))).

End PyDate.

Import PyStr PyDate.

(** ** Data model *)

(** A cell of the sheet: blank (read as [NaN]) or text. *)
Inductive cell := NaN | Str (s : string).

Definition cell_eqb (a b : cell) : bool :=
  match a, b with
  | NaN, NaN => true
  | Str s, Str t => String.eqb s t
  | _, _ => false
  end.

(** One row of the input file: the three required columns and the
    additional columns, by name. *)
Record Signup := mkSignup {
  name : cell;
  email : cell;
  signup_date : cell;
  others : list (string * cell)
}.

(** A row of the working frame [df]: the input columns and the three columns
    the pipeline adds.  [signup_date_standardized] holds [None] or text. *)
Record Row := mkRow {
  fields : Signup;
  original_index : nat;
  is_multi_plan : bool;
  signup_date_standardized : option string
}.

(** The input sheet: its header and its rows. *)
Record Sheet := mkSheet { header : list string; body : list Signup }.

(** A [Timestamp] always denotes a real calendar day; the time of day
    plays no role in the pipeline and is left out. *)
Record Timestamp := mkTimestamp {
  ts_date : date;
  ts_valid : valid_date ts_date = true
}.

(** Outcome of [pd.to_datetime(x, errors='coerce')]: a timestamp, [NaT], or
    an exception. *)
Inductive parse_result := Parsed (t : Timestamp) | NaT | Raised.

(** Values found in the output tables. *)
Inductive value :=
| VCell (c : cell)
| VInt (n : nat)
| VBool (b : bool)
| VObj (o : option string).

(** An output table: column labels, row labels and the cells, row by row. *)
Record Table := mkTable {
  columns : list string;
  index : list nat;
  data : list (list value)
}.

Record Summary := mkSummary {
  total_rows : nat;
  clean_rows : nat;
  quarantined_rows : nat
}.

(** The working state of [clean_signup_data]: the frame and the list of
    quarantined row labels. *)
Record State := mkState { df : list Row; quarantined_records : list nat }.

(** Exceptions that would leave [clean_signup_data]. *)
Inductive exn := KeyError | ValueError | IndexError.

Inductive result (A : Type) :=
| Ok (a : A)
| Raise (e : exn).
Arguments Ok {A} a.
Arguments Raise {A} e.

Definition bind {A B} (m : result A) (k : A -> result B) : result B :=
  match m with
  | Ok a => k a
  | Raise e => Raise e
  end.

Notation "x <- m ;; k" := (bind m (fun x => k))
  (at level 61, m at next level, right associativity).

(** ** Frame primitives *)

(** [str(x)] on a cell. *)
Definition py_str (c : cell) : string :=
  match c with NaN => "nan" | Str s => s end.

(** [str(x)] on the standardized date column. *)
Definition py_str_obj (o : option string) : string :=
  match o with None => "None" | Some s => s end.

Definition isna (c : cell) : bool :=
  match c with NaN => true | Str _ => false end.

Definition isna_obj (o : option string) : bool :=
  match o with None => true | Some _ => false end.

(** [idx in quarantined_records] *)
Definition mem (idx : nat) (q : list nat) : bool := existsb (Nat.eqb idx) q.

(** [df.at[idx, col] = v] for a label of the frame; [f] writes the column. *)
Fixpoint set_at (idx : nat) (f : Row -> Row) (rows : list Row) : list Row :=
  match rows, idx with
  | [], _ => []
  | r :: t, O => f r :: t
  | r :: t, S i => r :: set_at i f t
  end.

Definition set_standardized (s : string) (r : Row) : Row :=
  mkRow (fields r) (original_index r) (is_multi_plan r) (Some s).

Definition set_multi_plan (r : Row) : Row :=
  mkRow (fields r) (original_index r) true (signup_date_standardized r).

(** [df.at[idx, 'signup_date_standardized']] *)
Definition at_standardized (rows : list Row) (idx : nat)
  : result (option string) :=
  match nth_error rows idx with
  | Some r => Ok (signup_date_standardized r)
  | None => Raise KeyError
  end.

(** [df.iterrows()] and [df.index]: rows with their labels. *)
Definition iterrows (rows : list Row) : list (nat * Row) :=
  combine (seq 0 (length rows)) rows.

(** [df.iloc[labels]] *)
Fixpoint iloc (rows : list Row) (labels : list nat) : result (list Row) :=
  match labels with
  | [] => Ok []
  | i :: t =>
      match nth_error rows i with
      | Some r => rest <- iloc rows t ;; Ok (r :: rest)
      | None => Raise IndexError
      end
  end.

Definition quarantine (idx : nat) (st : State) : State :=
  mkState (df st) (quarantined_records st ++ [idx]).

(** Lines 27-36: the frame as read, with the metadata columns. *)
Definition load (rows : list Signup) : State :=
  mkState
    (map (fun ir => mkRow (snd ir) (fst ir) false None)
         (combine (seq 0 (length rows)) rows))
    [].

(** ** Grouping by email *)

Fixpoint insert_sorted (k : string) (l : list string) : list string :=
  match l with
  | [] => [k]
  | h :: t => if String.leb k h then k :: h :: t else h :: insert_sorted k t
  end.

Definition sort_keys (l : list string) : list string :=
  fold_right insert_sorted [] l.

Definition email_text (r : Row) : list string :=
  match email (fields r) with Str s => [s] | NaN => [] end.

(** The distinct email values, sorted; blank emails form no group. *)
Definition email_keys (rows : list Row) : list string :=
  sort_keys (nodup string_dec (flat_map email_text rows)).

(** The labels of the rows whose email is [k], in row order. *)
Definition group_of (rows : list Row) (k : string) : list nat :=
  map fst
    (filter (fun ir => cell_eqb (email (fields (snd ir))) (Str k))
            (iterrows rows)).

(** [df.groupby('email').groups] *)
Definition email_groups (rows : list Row) : list (string * list nat) :=
  map (fun k => (k, group_of rows k)) (email_keys rows).

(** ** The pipeline *)

(** Which of the validator's checks sent a record to quarantine. *)
Inductive check := EmailCheck | NameCheck | FieldCheck.

Definition test_indicators : list string :=
  ["test"; "dummy"; "abc"; "sample"; "demo"; "placeholder"].

Definition important_blank (r : Row) : bool :=
  (isna (name (fields r)) || is_empty (strip (py_str (name (fields r))))) ||
  (isna (email (fields r)) || is_empty (strip (py_str (email (fields r))))) ||
  (isna_obj (signup_date_standardized r) ||
   is_empty (strip (py_str_obj (signup_date_standardized r)))).

(** Line 92: the email test as the code evaluates it.  [split('@')[1:]] is
    a list of strings and [in] looks for an element equal to ["."]. *)
Definition email_rejected (r : Row) : bool :=
  let email := lower (strip (py_str (email (fields r)))) in
  is_empty email || negb (contains "@" email) ||
  negb (in_list "." (tl (split "@" email))).

(** Line 99 *)
Definition name_rejected (r : Row) : bool :=
  let name := lower (strip (py_str (name (fields r)))) in
  existsb (fun indicator => contains indicator name) test_indicators.

(** Lines 90-107: the first check that fails, if any. *)
Definition failed_check (r : Row) : option check :=
  if email_rejected r then Some EmailCheck
  else if name_rejected r then Some NameCheck
  else if important_blank r then Some FieldCheck
  else None.

(** Lines 86-107, one iteration. *)
Definition validate_step (st : State) (ir : nat * Row) : State :=
  let '(idx, row) := ir in
  if mem idx (quarantined_records st) then st
  else match failed_check row with
       | Some _ => quarantine idx st
       | None => st
       end.

Definition validate (st : State) : State :=
  fold_left validate_step (iterrows (df st)) st.

(** Lines 66-73, one iteration: the candidate so far and its date. *)
Definition recent_step (rows : list Row) (q : list nat)
    (acc : option nat * option date) (idx : nat)
  : result (option nat * option date) :=
  let '(recent_idx, most_recent_date) := acc in
  if mem idx q then Ok acc
  else
    o <- at_standardized rows idx ;;
    match o with
    | None => Ok acc
    | Some date_str =>
        if is_empty date_str then Ok acc
        else match strptime date_str with
             | None => Raise ValueError
             | Some date_obj =>
                 match most_recent_date with
                 | None => Ok (Some idx, Some date_obj)
                 | Some m =>
                     if date_ltb m date_obj
                     then Ok (Some idx, Some date_obj)
                     else Ok acc
                 end
             end
    end.

Fixpoint pick_recent (rows : list Row) (q : list nat)
    (acc : option nat * option date) (indices : list nat)
  : result (option nat * option date) :=
  match indices with
  | [] => Ok acc
  | idx :: t => acc' <- recent_step rows q acc idx ;; pick_recent rows q acc' t
  end.

Definition is_recent (idx : nat) (recent_idx : option nat) : bool :=
  match recent_idx with
  | Some i => Nat.eqb idx i
  | None => false
  end.

(** Lines 76-78 *)
Definition quarantine_others (recent_idx : option nat) (indices : list nat)
    (q : list nat) : list nat :=
  fold_left
    (fun q idx =>
       if negb (is_recent idx recent_idx) && negb (mem idx q)
       then q ++ [idx] else q)
    indices q.

(** Lines 81-82 *)
Definition flag_recent (recent_idx : option nat) (rows : list Row)
  : list Row :=
  match recent_idx with
  | Some i => set_at i set_multi_plan rows
  | None => rows
  end.

(** Lines 57-82, one group. *)
Definition resolve_group (st : State) (indices_list : list nat)
  : result State :=
  if 1 <? length indices_list then
    acc <- pick_recent (df st) (quarantined_records st) (None, None)
             indices_list ;;
    Ok (mkState
          (flag_recent (fst acc) (df st))
          (quarantine_others (fst acc) indices_list (quarantined_records st)))
  else Ok st.

Fixpoint resolve_groups (st : State) (groups : list (string * list nat))
  : result State :=
  match groups with
  | [] => Ok st
  | (_, indices) :: t => st' <- resolve_group st indices ;; resolve_groups st' t
  end.

(** Lines 55-82 *)
Definition resolve_duplicates (st : State) : result State :=
  resolve_groups st (email_groups (df st)).

Section Pipeline.

(** The permissive date parser of the library. *)
Variable to_datetime : cell -> parse_result.

(** Lines 37-49, one iteration. *)
Definition standardize_step (st : State) (ir : nat * Row) : State :=
  let '(idx, row) := ir in
  match to_datetime (signup_date (fields row)) with
  | Parsed parsed_date =>
      mkState
        (set_at idx (set_standardized (strftime (ts_date parsed_date))) (df st))
        (quarantined_records st)
  | NaT => quarantine idx st
  | Raised => quarantine idx st
  end.

Definition standardize (st : State) : State :=
  fold_left standardize_step (iterrows (df st)) st.

(** Lines 27-107: the three passes. *)
Definition classify (rows : list Signup) : result State :=
  st <- resolve_duplicates (standardize (load rows)) ;;
  Ok (validate st).

End Pipeline.

(** ** Partition and output columns *)

(** Lines 113-114 *)
Definition clean_indices (st : State) : list nat :=
  map fst
    (filter (fun ir =>
               negb (mem (fst ir) (quarantined_records st)) &&
               negb (isna_obj (signup_date_standardized (snd ir))))
            (iterrows (df st))).

(** [df[col] = ...]: a new column goes last, an existing one keeps its
    place. *)
Definition set_column (cols : list string) (col : string) : list string :=
  if in_list col cols then cols else cols ++ [col].

Definition df_columns (hdr : list string) : list string :=
  set_column
    (set_column (set_column hdr "original_index") "is_multi_plan")
    "signup_date_standardized".

(** Lines 118-120 *)
Definition original_columns (hdr : list string) : list string :=
  let cols :=
    filter (fun col =>
              negb (in_list col ["original_index"; "signup_date_standardized"]))
           (df_columns hdr) in
  if negb (in_list "signup_date_standardized" cols)
  then cols ++ ["signup_date_standardized"] else cols.

(** Lines 126-127 *)
Definition rename (cols : list string) : list string :=
  map (fun col =>
         if String.eqb col "signup_date_standardized" then "signup_date"
         else col)
      cols.

Fixpoint lookup (col : string) (l : list (string * cell)) : cell :=
  match l with
  | [] => NaN
  | (k, v) :: t => if String.eqb k col then v else lookup col t
  end.

(** The cell of a frame row under a column of the frame. *)
Definition row_value (r : Row) (col : string) : value :=
  if String.eqb col "original_index" then VInt (original_index r)
  else if String.eqb col "is_multi_plan" then VBool (is_multi_plan r)
  else if String.eqb col "signup_date_standardized"
       then VObj (signup_date_standardized r)
  else if String.eqb col "name" then VCell (name (fields r))
  else if String.eqb col "email" then VCell (email (fields r))
  else if String.eqb col "signup_date" then VCell (signup_date (fields r))
  else VCell (lookup col (others (fields r))).

(** Lines 122-127: select the output columns and rename. *)
Definition project (hdr : list string) (labels : list nat) (rows : list Row)
  : Table :=
  mkTable (rename (original_columns hdr)) labels
          (map (fun r => map (row_value r) (original_columns hdr)) rows).

Section Output.

Variable to_datetime : cell -> parse_result.

(** Lines 110, 123, 127 *)
Definition quarantined_df (hdr : list string) (st : State) : result Table :=
  rows <- iloc (df st) (quarantined_records st) ;;
  Ok (project hdr (quarantined_records st) rows).

(** Lines 113-115, 122, 126 *)
Definition clean_df (hdr : list string) (st : State) : result Table :=
  rows <- iloc (df st) (clean_indices st) ;;
  Ok (project hdr (clean_indices st) rows).

(** [clean_signup_data], after the file is read. *)
Definition clean_signup_data (input : Sheet)
  : result (Table * Table * Summary) :=
  st <- classify to_datetime (body input) ;;
  quarantined <- quarantined_df (header input) st ;;
  clean <- clean_df (header input) st ;;
  Ok (clean, quarantined,
      mkSummary (length (body input)) (length (data clean))
                (length (data quarantined))).

End Output.

(** A parser for the examples: it reads the text [strptime] reads, when
    that is a day a [Timestamp] can hold, and gives [NaT] on anything
    else. *)
Definition iso_to_datetime (c : cell) : parse_result :=
  match c with
  | NaN => NaT
  | Str s =>
      match strptime s with
      | Some d =>
          match valid_date d as b return valid_date d = b -> parse_result with
          | true => fun H => Parsed (mkTimestamp d H)
          | false => fun _ => NaT
          end eq_refl
      | None => NaT
      end
  end.

Definition two_signups : Sheet :=
  mkSheet ["name"; "email"; "signup_date"]
    [ mkSignup (Str "Alice") (Str "a@b.com") (Str "2023-01-01") [];
      mkSignup (Str "Alice") (Str "a@b.com") (Str "2023-06-15") [] ].

(** One signup with an ordinary address. *)
Definition valid_address : Sheet :=
  mkSheet ["name"; "email"; "signup_date"]
    [ mkSignup (Str "Alice") (Str "a@b.com") (Str "2023-01-01") [] ].

(** One signup that passes the validator as coded, dated without padding. *)
Definition unpadded_date : Sheet :=
  mkSheet ["name"; "email"; "signup_date"]
    [ mkSignup (Str "Alice") (Str "a@.") (Str "2023-6-5") [] ].


(** Two signups of one address that both pass the validator as coded. *)
Definition repeat_signups : Sheet :=
  mkSheet ["name"; "email"; "signup_date"]
    [ mkSignup (Str "Alice") (Str "a@.") (Str "2023-01-01") [];
      mkSignup (Str "Alice") (Str "a@.") (Str "2023-06-15") [] ].

(** A sheet with an unreadable date, a tie, a blank email and a blank
    name. *)
Definition mixed_signups : Sheet :=
  mkSheet ["name"; "email"; "signup_date"; "plan"]
    [ mkSignup (Str "Alice") (Str "b@.") (Str "2023-01-01") [("plan", Str "gold")];
      mkSignup (Str "Bob") (Str "a@.") (Str "not-a-date") [("plan", NaN)];
      mkSignup (Str "Bob") (Str "a@.") (Str "2023-06-15") [("plan", Str "x")];
      mkSignup (Str "Bob") (Str "a@.") (Str "2023-06-15") [("plan", Str "y")];
      mkSignup (Str "Al") (Str "b@.") (Str "2022-06-15") [("plan", Str "y")];
      mkSignup (Str "Carl") NaN (Str "2023-06-15") [];
      mkSignup NaN (Str "c@.") (Str "2023-06-15") [];
      mkSignup (Str "Dan") (Str " D@. ") (Str "2023-06-15") [] ].

(** ** Vocabulary for the statements *)

(** What pass one writes for a record, and whether it quarantines it. *)
Definition standardized_text (to_datetime : cell -> parse_result)
    (s : Signup) : option string :=
  match to_datetime (signup_date s) with
  | Parsed t => Some (strftime (ts_date t))
  | NaT => None
  | Raised => None
  end.

Definition parse_fails (to_datetime : cell -> parse_result) (s : Signup)
  : bool :=
  match to_datetime (signup_date s) with
  | Parsed _ => false
  | NaT => true
  | Raised => true
  end.



(** The row pass one leaves in the frame. *)
Definition standardized_row (to_datetime : cell -> parse_result) (r : Row)
  : Row :=
  match to_datetime (signup_date (fields r)) with
  | Parsed t => set_standardized (strftime (ts_date t)) r
  | NaT => r
  | Raised => r
  end.


(** The record lines 66-73 select in a group. *)
Definition survivor (rows : list Row) (q : list nat) (indices : list nat)
  : option nat :=
  match pick_recent rows q (None, None) indices with
  | Ok acc => fst acc
  | Raise _ => None
  end.

(** Every standardized date in the frame is text [strptime] accepts. *)
Definition dates_readable (rows : list Row) : Prop :=
  forall r s, In r rows -> signup_date_standardized r = Some s ->
              exists d, strptime s = Some d.

(** A frame row without its multi-plan flag. *)
Definition unflag (r : Row) : Row :=
  mkRow (fields r) (original_index r) false (signup_date_standardized r).

Fixpoint groups_disjoint (groups : list (string * list nat)) : Prop :=
  match groups with
  | [] => True
  | (_, g) :: t =>
      (forall j k' g', In j g -> In (k', g') t -> ~ In j g') /\
      groups_disjoint t
  end.

(** The state after pass one. *)
Definition after_dates (to_datetime : cell -> parse_result)
    (rows : list Signup) : State :=
  standardize to_datetime (load rows).



(** The rows of the clean table, in table order (lines 113-115). *)
Definition clean_records (st : State) : list Row :=
  map snd
    (filter (fun ir =>
               negb (mem (fst ir) (quarantined_records st)) &&
               negb (isna_obj (signup_date_standardized (snd ir))))
            (iterrows (df st))).

(** A clean record read back as an input row: its date column now holds
    the standardized date. *)
Definition reingest (r : Row) : Signup :=
  mkSignup (name (fields r)) (email (fields r))
    (match signup_date_standardized r with
     | Some s => Str s
     | None => NaN
     end)
    (others (fields r)).

(** What a table shows of a record: name, email, standardized date and,
    in [output_view], the multi-plan flag. *)
Definition record_view (r : Row) : cell * cell * option string :=
  (name (fields r), email (fields r), signup_date_standardized r).

Definition output_view (r : Row) : cell * cell * option string * bool :=
  (record_view r, is_multi_plan r).

(** ** The entry point [main] *)

(** A file on disk: a spreadsheet [pd.read_excel] can read, or a table
    written by [to_csv]. *)
Inductive file :=
| Excel (sheet : Sheet)
| Csv (cols : list string) (rows : list (list value)).

(** The directory [main] runs in, by file name. *)
Definition filesystem := string -> option file.

Definition write (fs : filesystem) (path : string) (f : file) : filesystem :=
  fun p => if String.eqb p path then Some f else fs p.

(** [t.to_csv(path, index=False)]: the header and the cells, without the
    row labels. *)
Definition to_csv (t : Table) : file := Csv (columns t) (data t).

(** How [main] can fail: an exception of the pipeline, a file that is no
    spreadsheet, or the division of line 170. *)
Inductive failure :=
| PipelineError (e : exn)
| ReadError
| ZeroDivisionError.

Inductive outcome := Returned | Failed (e : failure).

Section Main.

Variable to_datetime : cell -> parse_result.

(** Lines 142-172.  What [main] prints is left out; the model keeps the
    files it writes and the way it ends.  The quality rate of line 170
    divides by [total_rows] after both files are saved. *)
Definition main (fs : filesystem) : filesystem * outcome :=
  let input_file := "signups.xls" in
  match fs input_file with
  | None => (fs, Returned)
  | Some (Csv _ _) => (fs, Failed ReadError)
  | Some (Excel sheet) =>
      match clean_signup_data to_datetime sheet with
      | Raise e => (fs, Failed (PipelineError e))
      | Ok (clean_df, quarantined_df, summary) =>
          let fs1 := write fs "members_final.csv" (to_csv clean_df) in
          let fs2 := write fs1 "quarantine.csv" (to_csv quarantined_df) in
          if total_rows summary =? 0
          then (fs2, Failed ZeroDivisionError)
          else (fs2, Returned)
      end
  end.

End Main.


(** A directory without files. *)
Definition empty_directory : filesystem := fun _ => None.

(** ** Vocabulary for the further properties *)







(** * Properties *)

Example strip_ex : strip "  Test User " = "Test User".
Proof. reflexivity. Qed.

Example lower_ex : lower "Test User" = "test user".
Proof. reflexivity. Qed.

Example split_ex : split "@" "a@b.com@c" = ["a"; "b.com"; "c"].
Proof. reflexivity. Qed.

Example strftime_ex : strftime (mkDate 2023 6 15) = "2023-06-15".
Proof. reflexivity. Qed.

Example strptime_ex : strptime "2023-06-15" = Some (mkDate 2023 6 15).
Proof. reflexivity. Qed.

Example strptime_bad : strptime "2023-02-30" = None.
Proof. reflexivity. Qed.

Example sort_keys_ex : sort_keys ["b"; "a"; "B"; "ab"] = ["B"; "a"; "ab"; "b"].
Proof. reflexivity. Qed.

(** Pass one quarantines row 1; the groups are visited in key order, so
    pass two adds 3 (tie with 2, which came first) and then 4; the
    validator adds 5 (blank email) and 6 (blank name). *)
Example mixed_signups_run :
  exists clean quarantined,
    clean_signup_data iso_to_datetime mixed_signups =
    Ok (clean, quarantined, mkSummary 8 3 5) /\
    index clean = [0; 2; 7] /\ index quarantined = [1; 3; 4; 5; 6] /\
    map (fun row => nth_error row 4) (data clean) =
      [Some (VBool true); Some (VBool true); Some (VBool false)].
Proof.
  do 2 eexists. split; [vm_compute; reflexivity|]. repeat split.
Qed.

(** ** [strptime] reads back what [strftime] wrote *)
Module PyDateFacts.

Local Open Scope Z_scope.

Lemma digit_range (n : Z) :
  0 <= n < 10 -> In n [0; 1; 2; 3; 4; 5; 6; 7; 8; 9].
Proof. cbn. lia. Qed.

Lemma digit_val_char (n : Z) :
  0 <= n < 10 -> digit_val (digit_char n) = Some n.
Proof.
  intros H. apply digit_range in H.
  repeat (destruct H as [<-|H]; [reflexivity|]). destruct H.
Qed.

Lemma digit_char_not_space (n : Z) :
  0 <= n < 10 -> Ascii.eqb (digit_char n) " " = false.
Proof.
  intros H. apply digit_range in H.
  repeat (destruct H as [<-|H]; [reflexivity|]). destruct H.
Qed.

Lemma num2_digits (n : Z) :
  0 <= n < 100 ->
  num2 (digit_char (n / 10 mod 10)) (digit_char (n mod 10)) = Some n.
Proof.
  intros H. unfold num2.
  rewrite !digit_val_char by (apply Z.mod_pos_bound; lia).
  f_equal.
  assert (n / 10 mod 10 = n / 10) as -> by (apply Z.mod_small; split;
    [apply Z.div_pos; lia | apply Z.div_lt_upper_bound; lia]).
  pose proof (Z.div_mod n 10). lia.
Qed.

Lemma num4_digits (n : Z) :
  0 <= n < 10000 ->
  num4 (digit_char (n / 1000 mod 10)) (digit_char (n / 100 mod 10))
       (digit_char (n / 10 mod 10)) (digit_char (n mod 10)) = Some n.
Proof.
  intros H. unfold num4.
  assert (Hq : 0 <= n / 100 < 100).
  { split; [apply Z.div_pos; lia | apply Z.div_lt_upper_bound; lia]. }
  assert (Hr : 0 <= n mod 100 < 100) by (apply Z.mod_pos_bound; lia).
  pose proof (num2_digits (n / 100) Hq) as E1.
  pose proof (num2_digits (n mod 100) Hr) as E2.
  replace (n / 100 / 10) with (n / 1000) in E1
    by (rewrite Z.div_div by lia; reflexivity).
  replace (n mod 100 / 10 mod 10) with (n / 10 mod 10) in E2.
  2:{ pose proof (Z.div_mod n 100). pose proof (Z.div_mod (n mod 100) 10).
      pose proof (Z.div_mod n 10).
      pose proof (Z.mod_pos_bound (n mod 100) 10).
      pose proof (Z.mod_pos_bound n 10).
      pose proof (Z.div_mod (n / 10) 10). pose proof (Z.mod_pos_bound (n / 10) 10).
      pose proof (Z.div_mod (n mod 100 / 10) 10).
      pose proof (Z.mod_pos_bound (n mod 100 / 10) 10).
      assert (0 <= n mod 100 / 10 < 10).
      { split; [apply Z.div_pos; lia | apply Z.div_lt_upper_bound; lia]. }
      lia. }
  replace ((n mod 100) mod 10) with (n mod 10) in E2.
  2:{ pose proof (Z.div_mod n 100). pose proof (Z.div_mod (n mod 100) 10).
      pose proof (Z.div_mod n 10).
      pose proof (Z.mod_pos_bound (n mod 100) 10).
      pose proof (Z.mod_pos_bound n 10). lia. }
  rewrite E1, E2. f_equal. pose proof (Z.div_mod n 100). lia.
Qed.

Lemma valid_date_bounds (d : date) :
  valid_date d = true ->
  1000 <= year d <= 9999 /\ 1 <= month d <= 12 /\
  1 <= day d <= days_in_month (year d) (month d).
Proof.
  unfold valid_date. rewrite !andb_true_iff, !Z.leb_le. lia.
Qed.

Lemma days_in_month_le (y m : Z) : days_in_month y m <= 31.
Proof.
  unfold days_in_month.
  repeat match goal with
         | |- context [match ?x with _ => _ end] => destruct x
         end; lia.
Qed.

Lemma strptime_strftime (d : date) :
  valid_date d = true -> strptime (strftime d) = Some d.
Proof.
  intros Hv. pose proof (valid_date_bounds d Hv) as (Hy & Hm & Hd).
  pose proof (days_in_month_le (year d) (month d)) as Hle.
  destruct d as [y m dd]; cbn [year month day] in *.
  cbv [strftime pad4 pad2 strptime list_ascii_of_string year month day].
  change (is_dash "-") with true. cbv iota.
  rewrite num4_digits by lia.
  cbv [month_day]. change (is_dash "-") with true. cbv iota.
  cbv [field]. cbn [andb].
  rewrite digit_char_not_space by (apply Z.mod_pos_bound; lia).
  rewrite !num2_digits by lia.
  replace ((1 <=? y) && (1 <=? m) && (m <=? 12) && (1 <=? dd) &&
           (dd <=? days_in_month y m))%bool with true; [reflexivity|].
  symmetry. rewrite !andb_true_iff, !Z.leb_le. lia.
Qed.


End PyDateFacts.

(** ** Lists, labels and the frame *)

Lemma mem_In (i : nat) (q : list nat) : mem i q = true <-> In i q.
Proof.
  unfold mem. rewrite existsb_exists. split.
  - intros (x & Hx & E). apply Nat.eqb_eq in E. now subst.
  - intros H. exists i. split; [assumption | apply Nat.eqb_refl].
Qed.

Lemma mem_notin (i : nat) (q : list nat) : mem i q = false <-> ~ In i q.
Proof.
  rewrite <- mem_In. destruct (mem i q); split; congruence.
Qed.

Lemma set_at_length (i : nat) (f : Row -> Row) (rows : list Row) :
  length (set_at i f rows) = length rows.
Proof.
  revert i. induction rows as [|r t IH]; intros [|i]; cbn; auto.
Qed.

Lemma nth_error_set_at_same (i : nat) (f : Row -> Row) (rows : list Row) :
  nth_error (set_at i f rows) i = option_map f (nth_error rows i).
Proof.
  revert i. induction rows as [|r t IH]; intros [|i]; cbn; auto.
Qed.

Lemma nth_error_set_at_other (i j : nat) (f : Row -> Row) (rows : list Row) :
  i <> j -> nth_error (set_at i f rows) j = nth_error rows j.
Proof.
  revert i j. induction rows as [|r t IH]; intros [|i] [|j] H; cbn; auto.
  congruence.
Qed.

Lemma set_at_middle (f : Row -> Row) (pre : list Row) (r : Row)
    (suf : list Row) :
  set_at (length pre) f (pre ++ r :: suf) = pre ++ f r :: suf.
Proof.
  induction pre as [|p pre IH]; cbn; [reflexivity | now rewrite IH].
Qed.

Lemma in_combine_seq {A : Type} (l : list A) (s i : nat) (x : A) :
  In (i, x) (combine (seq s (length l)) l) <->
  s <= i /\ nth_error l (i - s) = Some x.
Proof.
  revert s. induction l as [|a l IH]; intros s; cbn [length seq combine].
  - split; [intros [] | intros [_ H]; now destruct (i - s)].
  - cbn [In]. rewrite IH. split.
    + intros [E | [Hle Hn]].
      * inversion E; subst. split; [lia|]. now rewrite Nat.sub_diag.
      * split; [lia|]. replace (i - s) with (S (i - S s)) by lia. exact Hn.
    + intros [Hle Hn]. destruct (Nat.eq_dec s i) as [->|Hne].
      * left. rewrite Nat.sub_diag in Hn. cbn in Hn. congruence.
      * right. split; [lia|].
        replace (i - s) with (S (i - S s)) in Hn by lia. exact Hn.
Qed.

Lemma in_iterrows (rows : list Row) (i : nat) (r : Row) :
  In (i, r) (iterrows rows) <-> nth_error rows i = Some r.
Proof.
  unfold iterrows. rewrite in_combine_seq, Nat.sub_0_r. intuition lia.
Qed.

Lemma map_fst_combine_seq {A : Type} (l : list A) (s : nat) :
  map fst (combine (seq s (length l)) l) = seq s (length l).
Proof.
  revert s. induction l as [|a l IH]; intros s; cbn; [|rewrite IH]; auto.
Qed.

Lemma iterrows_labels (rows : list Row) :
  map fst (iterrows rows) = seq 0 (length rows).
Proof. apply map_fst_combine_seq. Qed.

Lemma NoDup_map_fst_filter {A : Type} (p : nat * A -> bool)
    (l : list (nat * A)) :
  NoDup (map fst l) -> NoDup (map fst (filter p l)).
Proof.
  induction l as [|a l IH]; cbn; intros H; [constructor|].
  inversion H as [|x xs Hn Hd]; subst.
  destruct (p a); cbn; auto.
  constructor; auto. intros Hin. apply Hn.
  apply in_map_iff in Hin as (y & E & Hy). apply filter_In in Hy as [Hy _].
  apply in_map_iff. now exists y.
Qed.

(** ** Pass one: date standardization *)
Section PassOne.

Variable to_datetime : cell -> parse_result.

Lemma standardize_fold (suf pre : list Row) (q : list nat) :
  fold_left (standardize_step to_datetime)
    (combine (seq (length pre) (length suf)) suf)
    (mkState (pre ++ suf) q) =
  mkState (pre ++ map (standardized_row to_datetime) suf)
    (q ++ map fst
       (filter (fun ir => parse_fails to_datetime (fields (snd ir)))
          (combine (seq (length pre) (length suf)) suf))).
Proof.
  revert pre q. induction suf as [|r suf IH]; intros pre q.
  - cbn. now rewrite !app_nil_r.
  - cbn [length seq combine fold_left filter snd].
    specialize (IH (pre ++ [standardized_row to_datetime r])).
    rewrite length_app in IH. cbn [length] in IH.
    rewrite Nat.add_1_r in IH.
    unfold standardize_step at 2. unfold parse_fails at 1.
    unfold standardized_row at 1 in IH. unfold standardized_row at 1.
    cbn [df quarantined_records].
    destruct (to_datetime (signup_date (fields r))) as [t| |].
    + rewrite set_at_middle.
      replace (pre ++ set_standardized (strftime (ts_date t)) r :: suf)
        with ((pre ++ [set_standardized (strftime (ts_date t)) r]) ++ suf)
        by (now rewrite <- app_assoc).
      rewrite IH, <- app_assoc. reflexivity.
    + unfold quarantine. cbn [df quarantined_records map fst].
      replace (pre ++ r :: suf) with ((pre ++ [r]) ++ suf)
        by (now rewrite <- app_assoc).
      rewrite IH, <- !app_assoc. reflexivity.
    + unfold quarantine. cbn [df quarantined_records map fst].
      replace (pre ++ r :: suf) with ((pre ++ [r]) ++ suf)
        by (now rewrite <- app_assoc).
      rewrite IH, <- !app_assoc. reflexivity.
Qed.

Lemma standardize_spec (rows : list Row) :
  standardize to_datetime (mkState rows []) =
  mkState (map (standardized_row to_datetime) rows)
    (map fst
       (filter (fun ir => parse_fails to_datetime (fields (snd ir)))
          (iterrows rows))).
Proof.
  unfold standardize, iterrows. cbn [df].
  exact (standardize_fold rows [] []).
Qed.

End PassOne.

(** ** Pass two: choosing the most recent signup of a group *)






Lemma recent_step_total (rows : list Row) (q : list nat)
    (acc : option nat * option date) (idx : nat) :
  dates_readable rows -> idx < length rows ->
  exists acc', recent_step rows q acc idx = Ok acc'.
Proof.
  intros Hd Hlt. destruct acc as [ri rd].
  unfold recent_step, at_standardized.
  destruct (mem idx q); [eauto|].
  destruct (nth_error rows idx) as [r|] eqn:En.
  2:{ apply nth_error_None in En. lia. }
  cbn [bind]. destruct (signup_date_standardized r) as [s|] eqn:Es; [|eauto].
  destruct (is_empty s); [eauto|].
  destruct (Hd r s (nth_error_In _ _ En) Es) as [d ->].
  destruct rd as [m|]; [destruct (date_ltb m d)|]; eauto.
Qed.

Lemma pick_recent_total (rows : list Row) (q : list nat) (l : list nat) :
  dates_readable rows -> (forall j, In j l -> j < length rows) ->
  forall acc, exists acc', pick_recent rows q acc l = Ok acc'.
Proof.
  intros Hd. induction l as [|j l IH]; intros Hr acc; cbn [pick_recent].
  - eauto.
  - destruct (recent_step_total rows q acc j Hd) as [a Ea].
    + apply Hr. now left.
    + rewrite Ea. cbn [bind]. apply IH. intros x Hx. apply Hr. now right.
Qed.

(** The selection only looks at the members' quarantine status and
    standardized dates. *)
Lemma pick_recent_ext (rows rows' : list Row) (q q' : list nat)
    (l : list nat) :
  (forall j, In j l -> mem j q = mem j q') ->
  (forall j, In j l -> at_standardized rows j = at_standardized rows' j) ->
  forall acc, pick_recent rows q acc l = pick_recent rows' q' acc l.
Proof.
  induction l as [|j l IH]; intros Hq Hs acc; cbn [pick_recent]; [reflexivity|].
  assert (E : recent_step rows q acc j = recent_step rows' q' acc j).
  { unfold recent_step. destruct acc as [ri rd].
    rewrite (Hq j (or_introl eq_refl)), (Hs j (or_introl eq_refl)).
    reflexivity. }
  rewrite E. destruct (recent_step rows' q' acc j); cbn [bind]; [|reflexivity].
  apply IH; intros x Hx; [apply Hq | apply Hs]; now right.
Qed.


(** ** Pass two: quarantining the other members *)

Lemma quarantine_others_In (ri : option nat) (l q : list nat) (x : nat) :
  In x (quarantine_others ri l q) <->
  In x q \/ (In x l /\ is_recent x ri = false).
Proof.
  unfold quarantine_others. revert q.
  induction l as [|j l IH]; intros q; cbn [fold_left].
  - cbn. tauto.
  - rewrite IH. cbn [In].
    destruct (is_recent j ri) eqn:Er; cbn [negb andb].
    + split; [tauto|]. intros [H|[[->|H] E]]; auto; congruence.
    + destruct (mem j q) eqn:Em; cbn [negb].
      * apply mem_In in Em. split; [tauto|].
        intros [H|[[->|H] E]]; auto.
      * rewrite in_app_iff. cbn [In]. split.
        -- intros [[H|[->|[]]]|H]; auto. tauto.
        -- intros [H|[[->|H] E]]; auto.
Qed.

Lemma quarantine_others_NoDup (ri : option nat) (l q : list nat) :
  NoDup q -> NoDup (quarantine_others ri l q).
Proof.
  unfold quarantine_others. revert q.
  induction l as [|j l IH]; intros q Hq; cbn [fold_left]; [assumption|].
  apply IH.
  destruct (negb (is_recent j ri) && negb (mem j q)) eqn:E; [|assumption].
  apply andb_true_iff in E as [_ E]. apply negb_true_iff, mem_notin in E.
  apply NoDup_app; [assumption | repeat constructor; intros [] |].
  intros x Hx [<-|[]]. contradiction.
Qed.

Lemma quarantine_others_prefix (ri : option nat) (l q : list nat) :
  exists ext, quarantine_others ri l q = q ++ ext.
Proof.
  unfold quarantine_others. revert q.
  induction l as [|j l IH]; intros q; cbn [fold_left].
  - exists []. now rewrite app_nil_r.
  - destruct (negb (is_recent j ri) && negb (mem j q)).
    + destruct (IH (q ++ [j])) as [ext ->]. exists (j :: ext).
      now rewrite <- app_assoc.
    + apply IH.
Qed.

Lemma is_recent_false (x : nat) (ri : option nat) :
  is_recent x ri = false <-> ri <> Some x.
Proof.
  destruct ri as [i|]; cbn.
  - rewrite Nat.eqb_neq. split; intros H; congruence.
  - split; [discriminate | reflexivity].
Qed.

Lemma unflag_set_at (i : nat) (rows : list Row) :
  map unflag (set_at i set_multi_plan rows) = map unflag rows.
Proof.
  revert i. induction rows as [|r t IH]; intros [|i]; cbn; auto.
  now rewrite IH.
Qed.

Lemma unflag_flag_recent (ri : option nat) (rows : list Row) :
  map unflag (flag_recent ri rows) = map unflag rows.
Proof. destruct ri; [apply unflag_set_at | reflexivity]. Qed.

Lemma unflag_nth (rows rows' : list Row) (i : nat) (r' : Row) :
  map unflag rows' = map unflag rows ->
  nth_error rows' i = Some r' ->
  exists r, nth_error rows i = Some r /\ unflag r = unflag r'.
Proof.
  intros E H.
  assert (H' : nth_error (map unflag rows') i = Some (unflag r'))
    by (rewrite nth_error_map, H; reflexivity).
  rewrite E, nth_error_map in H'.
  destruct (nth_error rows i) as [r|]; cbn in H'; [|discriminate].
  exists r. split; [reflexivity | congruence].
Qed.

Lemma unflag_length (rows rows' : list Row) :
  map unflag rows' = map unflag rows -> length rows' = length rows.
Proof. intros E. apply (f_equal (@length Row)) in E. now rewrite !length_map in E. Qed.

Lemma unflag_at_standardized (rows rows' : list Row) (i : nat) :
  map unflag rows' = map unflag rows ->
  at_standardized rows' i = at_standardized rows i.
Proof.
  intros E. unfold at_standardized.
  destruct (nth_error rows' i) as [r'|] eqn:E'.
  - destruct (unflag_nth _ _ _ _ E E') as (r & -> & Hu).
    apply (f_equal signup_date_standardized) in Hu. cbn in Hu. now rewrite Hu.
  - apply nth_error_None in E'. rewrite (unflag_length _ _ E) in E'.
    apply nth_error_None in E'. now rewrite E'.
Qed.

Lemma unflag_dates_readable (rows rows' : list Row) :
  map unflag rows' = map unflag rows ->
  dates_readable rows -> dates_readable rows'.
Proof.
  intros E Hd r' s Hin Hs.
  apply In_nth_error in Hin as [i Hi].
  destruct (unflag_nth _ _ _ _ E Hi) as (r & Hr & Hu).
  apply (Hd r s); [eapply nth_error_In; eauto|].
  apply (f_equal signup_date_standardized) in Hu. cbn in Hu. congruence.
Qed.

(** The flag of a row after [flag_recent]. *)
Lemma flag_recent_nth (ri : option nat) (rows : list Row) (i : nat)
    (r' : Row) :
  nth_error (flag_recent ri rows) i = Some r' ->
  exists r, nth_error rows i = Some r /\
            is_multi_plan r' = (is_multi_plan r || is_recent i ri).
Proof.
  destruct ri as [j|]; cbn [flag_recent is_recent].
  - destruct (Nat.eq_dec j i) as [->|Hne].
    + rewrite nth_error_set_at_same. destruct (nth_error rows i) as [r|];
        cbn; [|discriminate].
      intros E. inversion E; subst. exists r. split; [reflexivity|].
      cbn. now rewrite Nat.eqb_refl, orb_true_r.
    + rewrite nth_error_set_at_other by assumption. intros E.
      exists r'. split; [assumption|].
      apply Nat.eqb_neq in Hne. rewrite Nat.eqb_sym in Hne.
      now rewrite Hne, orb_false_r.
  - intros E. exists r'. split; [assumption | now rewrite orb_false_r].
Qed.

Lemma resolve_group_small (st : State) (l : list nat) :
  length l <= 1 -> resolve_group st l = Ok st.
Proof.
  intros H. unfold resolve_group.
  destruct (1 <? length l) eqn:E; [|reflexivity].
  apply Nat.ltb_lt in E. lia.
Qed.

Lemma resolve_group_big (st : State) (l : list nat) :
  1 < length l ->
  dates_readable (df st) -> (forall j, In j l -> j < length (df st)) ->
  resolve_group st l =
  Ok (mkState (flag_recent (survivor (df st) (quarantined_records st) l) (df st))
        (quarantine_others (survivor (df st) (quarantined_records st) l) l
           (quarantined_records st))).
Proof.
  intros H Hd Hr. unfold resolve_group, survivor.
  apply Nat.ltb_lt in H. rewrite H.
  destruct (pick_recent_total (df st) (quarantined_records st) l Hd Hr (None, None))
    as [acc ->].
  reflexivity.
Qed.

Lemma survivor_stable (rows rows' : list Row) (q q' : list nat)
    (g : list nat) :
  (forall j, In j g -> mem j q' = mem j q) ->
  map unflag rows' = map unflag rows ->
  survivor rows' q' g = survivor rows q g.
Proof.
  intros Hq Hu. unfold survivor.
  rewrite (pick_recent_ext rows' rows q' q g Hq); [reflexivity|].
  intros j _. now apply unflag_at_standardized.
Qed.

(** Lines 57-82 for one group, in terms of the record it selects. *)
Lemma resolve_group_spec (st : State) (g : list nat) :
  dates_readable (df st) -> (forall j, In j g -> j < length (df st)) ->
  exists st',
    resolve_group st g = Ok st' /\
    map unflag (df st') = map unflag (df st) /\
    (forall i r', nth_error (df st') i = Some r' ->
       exists r, nth_error (df st) i = Some r /\
         (is_multi_plan r' = true <->
          is_multi_plan r = true \/
          (1 < length g /\
           survivor (df st) (quarantined_records st) g = Some i))) /\
    (forall x, In x (quarantined_records st') <->
       In x (quarantined_records st) \/
       (1 < length g /\ In x g /\
        survivor (df st) (quarantined_records st) g <> Some x)) /\
    (NoDup (quarantined_records st) -> NoDup (quarantined_records st')) /\
    (exists ext, quarantined_records st' = quarantined_records st ++ ext).
Proof.
  intros Hd Hr. destruct (Nat.le_gt_cases (length g) 1) as [Hs|Hb].
  - exists st. split; [now apply resolve_group_small|].
    split; [reflexivity|]. split; [|split; [|split]].
    + intros i r' H. exists r'. split; [assumption|]. split; [tauto|].
      intros [H'|[H' _]]; [assumption | lia].
    + intros x. split; [tauto|]. intros [H|[H _]]; [assumption | lia].
    + trivial.
    + exists []. now rewrite app_nil_r.
  - eexists. split; [now apply resolve_group_big|]. cbn [df quarantined_records].
    set (s := survivor (df st) (quarantined_records st) g).
    split; [apply unflag_flag_recent|]. split; [|split; [|split]].
    + intros i r' H. destruct (flag_recent_nth _ _ _ _ H) as (r & Hr' & E).
      exists r. split; [assumption|]. rewrite E, orb_true_iff.
      split; intros [H1|H1]; auto.
      * right. split; [assumption|]. destruct s as [j|]; cbn in H1;
          [apply Nat.eqb_eq in H1; now subst | discriminate].
      * right. destruct H1 as [_ ->]. cbn. apply Nat.eqb_refl.
    + intros x. rewrite quarantine_others_In, is_recent_false. tauto.
    + apply quarantine_others_NoDup.
    + apply quarantine_others_prefix.
Qed.

(** Lines 57-82 for a list of pairwise disjoint groups. *)
Lemma resolve_groups_spec (groups : list (string * list nat)) :
  forall st,
  groups_disjoint groups ->
  (forall k g j, In (k, g) groups -> In j g -> j < length (df st)) ->
  dates_readable (df st) ->
  exists st',
    resolve_groups st groups = Ok st' /\
    map unflag (df st') = map unflag (df st) /\
    (forall i r', nth_error (df st') i = Some r' ->
       exists r, nth_error (df st) i = Some r /\
         (is_multi_plan r' = true <->
          is_multi_plan r = true \/
          exists k g, In (k, g) groups /\ 1 < length g /\
                      survivor (df st) (quarantined_records st) g = Some i)) /\
    (forall x, In x (quarantined_records st') <->
       In x (quarantined_records st) \/
       exists k g, In (k, g) groups /\ 1 < length g /\ In x g /\
                   survivor (df st) (quarantined_records st) g <> Some x) /\
    (NoDup (quarantined_records st) -> NoDup (quarantined_records st')) /\
    (exists ext, quarantined_records st' = quarantined_records st ++ ext).
Proof.
  induction groups as [|[k0 g0] t IH]; intros st Hdis Hrange Hd.
  - exists st. cbn [resolve_groups]. split; [reflexivity|].
    split; [reflexivity|]. split; [|split; [|split]].
    + intros i r' H. exists r'. split; [assumption|]. split; [tauto|].
      intros [H'|(k & g & [] & _)]. assumption.
    + intros x. split; [tauto|]. intros [H|(k & g & [] & _)]. assumption.
    + trivial.
    + exists []. now rewrite app_nil_r.
  - destruct Hdis as [Hhead Hdis].
    destruct (resolve_group_spec st g0 Hd) as (sm & Eg & Hu & Hf & Hq & Hn & Hp).
    { intros j Hj. apply (Hrange k0 g0 j); [now left | assumption]. }
    destruct (IH sm Hdis) as (st' & Et & Hu' & Hf' & Hq' & Hn' & Hp').
    { intros k g j Hin Hj. rewrite (unflag_length _ _ Hu).
      apply (Hrange k g j); [now right | assumption]. }
    { apply (unflag_dates_readable _ _ Hu Hd). }
    assert (Hstable : forall k g, In (k, g) t ->
              survivor (df sm) (quarantined_records sm) g =
              survivor (df st) (quarantined_records st) g).
    { intros k g Hin. apply survivor_stable; [|assumption].
      intros j Hj.
      destruct (mem j (quarantined_records st)) eqn:Em.
      - apply mem_In. apply Hq. left. now apply mem_In.
      - apply mem_notin. intros Hc. apply Hq in Hc as [Hc|(_ & Hc & _)].
        + apply mem_notin in Em. contradiction.
        + exact (Hhead j k g Hc Hin Hj). }
    exists st'. cbn [resolve_groups]. rewrite Eg. cbn [bind].
    split; [assumption|]. split; [congruence|]. split; [|split; [|split]].
    + intros i r' H. destruct (Hf' i r' H) as (rm & Hrm & Em).
      destruct (Hf i rm Hrm) as (r & Hr & E). exists r. split; [assumption|].
      rewrite Em, E. split.
      * intros [[H1|[H1 H2]]|(k & g & Hin & Hl & Hs)]; auto.
        -- right. exists k0, g0. split; [now left | auto].
        -- right. exists k, g. split; [now right|]. split; [assumption|].
           now rewrite <- (Hstable k g Hin).
      * intros [H1|(k & g & [Hin|Hin] & Hl & Hs)]; auto.
        -- inversion Hin; subst. auto.
        -- right. exists k, g. split; [assumption|]. split; [assumption|].
           now rewrite (Hstable k g Hin).
    + intros x. rewrite Hq', Hq. split.
      * intros [[H1|(H1 & H2 & H3)]|(k & g & Hin & Hl & Hx & Hs)]; auto.
        -- right. exists k0, g0. split; [now left | auto].
        -- right. exists k, g. split; [now right|]. split; [assumption|].
           split; [assumption|]. now rewrite <- (Hstable k g Hin).
      * intros [H1|(k & g & [Hin|Hin] & Hl & Hx & Hs)]; auto.
        -- inversion Hin; subst. auto.
        -- right. exists k, g. split; [assumption|]. split; [assumption|].
           split; [assumption|]. now rewrite (Hstable k g Hin).
    + auto.
    + destruct Hp as [e1 E1], Hp' as [e2 E2]. exists (e1 ++ e2).
      now rewrite E2, E1, <- app_assoc.
Qed.

(** ** The email groups *)

Lemma insert_sorted_perm (k : string) (l : list string) :
  Permutation (insert_sorted k l) (k :: l).
Proof.
  induction l as [|h t IH]; cbn; [reflexivity|].
  destruct (String.leb k h); [reflexivity|].
  rewrite IH. apply perm_swap.
Qed.

Lemma sort_keys_perm (l : list string) : Permutation (sort_keys l) l.
Proof.
  induction l as [|h t IH]; cbn; [reflexivity|].
  rewrite insert_sorted_perm. now constructor.
Qed.

Lemma cell_eqb_Str (c : cell) (k : string) :
  cell_eqb c (Str k) = true <-> c = Str k.
Proof.
  destruct c as [|s]; cbn; [split; discriminate|].
  rewrite String.eqb_eq. split; congruence.
Qed.


Lemma email_keys_NoDup (rows : list Row) : NoDup (email_keys rows).
Proof.
  unfold email_keys.
  apply (Permutation_NoDup (Permutation_sym (sort_keys_perm _))).
  apply NoDup_nodup.
Qed.

Lemma group_of_In (rows : list Row) (k : string) (j : nat) :
  In j (group_of rows k) <->
  exists r, nth_error rows j = Some r /\ email (fields r) = Str k.
Proof.
  unfold group_of. rewrite in_map_iff. split.
  - intros ([i r] & E & H). cbn in E. subst i.
    apply filter_In in H as [H Hk]. cbn in Hk.
    exists r. split; [now apply in_iterrows | now apply cell_eqb_Str].
  - intros (r & Hn & E). exists (j, r). split; [reflexivity|].
    apply filter_In. split; [now apply in_iterrows|].
    cbn. now apply cell_eqb_Str.
Qed.

Lemma group_of_NoDup (rows : list Row) (k : string) :
  NoDup (group_of rows k).
Proof.
  unfold group_of. apply NoDup_map_fst_filter.
  rewrite iterrows_labels. apply seq_NoDup.
Qed.

Lemma group_of_range (rows : list Row) (k : string) (j : nat) :
  In j (group_of rows k) -> j < length rows.
Proof.
  intros H. apply group_of_In in H as (r & Hn & _).
  apply nth_error_Some. congruence.
Qed.

Lemma email_groups_In (rows : list Row) (k : string) (g : list nat) :
  In (k, g) (email_groups rows) <->
  In k (email_keys rows) /\ g = group_of rows k.
Proof.
  unfold email_groups. rewrite in_map_iff. split.
  - intros (k' & E & H). inversion E; subst. auto.
  - intros [H ->]. now exists k.
Qed.

Lemma groups_disjoint_keys (rows : list Row) (keys : list string) :
  NoDup keys ->
  groups_disjoint (map (fun k => (k, group_of rows k)) keys).
Proof.
  induction keys as [|k keys IH]; intros Hn; cbn; [trivial|].
  inversion Hn as [|x xs Hk Hn']; subst. split; [|now apply IH].
  intros j k' g' Hj Hin Hj'.
  apply in_map_iff in Hin as (k2 & E & Hk2). inversion E; subst.
  apply group_of_In in Hj as (r & Hr & E1).
  apply group_of_In in Hj' as (r' & Hr' & E2).
  assert (k = k') by congruence. subst. contradiction.
Qed.

Lemma email_groups_disjoint (rows : list Row) :
  groups_disjoint (email_groups rows).
Proof. apply groups_disjoint_keys, email_keys_NoDup. Qed.

(** ** Pass three: validation *)

Lemma validate_fold (l : list (nat * Row)) :
  forall st,
  df (fold_left validate_step l st) = df st /\
  (forall x, In x (quarantined_records (fold_left validate_step l st)) <->
     In x (quarantined_records st) \/
     exists r, In (x, r) l /\ failed_check r <> None) /\
  (NoDup (quarantined_records st) ->
   NoDup (quarantined_records (fold_left validate_step l st))) /\
  (exists ext, quarantined_records (fold_left validate_step l st) =
               quarantined_records st ++ ext).
Proof.
  induction l as [|[i r] l IH]; intros st; cbn [fold_left].
  - split; [reflexivity|]. split; [|split].
    + intros x. split; [tauto|]. intros [H|(r & [] & _)]. assumption.
    + trivial.
    + exists []. now rewrite app_nil_r.
  - destruct (IH (validate_step st (i, r))) as (Hdf & Hq & Hn & [ext Hp]).
    unfold validate_step in Hdf, Hq, Hn, Hp |- *.
    destruct (mem i (quarantined_records st)) eqn:Em.
    + split; [assumption|]. split; [|split; [assumption | eauto]].
      intros x. rewrite Hq. cbn [In]. split.
      * intros [H|(r' & H & Hf)]; eauto.
      * intros [H|(r' & [E|H] & Hf)]; eauto.
        inversion E; subst. left. now apply mem_In.
    + destruct (failed_check r) as [c|] eqn:Ef.
      * unfold quarantine in *. cbn [df quarantined_records] in *.
        split; [assumption|]. split; [|split].
        -- intros x. rewrite Hq, in_app_iff. cbn [In]. split.
           ++ intros [[H|[<-|[]]]|(r' & H & Hf)]; eauto.
              right. exists r. split; [now left | congruence].
           ++ intros [H|(r' & [E|H] & Hf)]; eauto.
              inversion E; subst. auto.
        -- intros Hnd. apply Hn. apply mem_notin in Em.
           apply NoDup_app; [assumption | repeat constructor; intros [] |].
           intros x Hx [<-|[]]. contradiction.
        -- exists (i :: ext). now rewrite Hp, <- app_assoc.
      * split; [assumption|]. split; [|split; [assumption | eauto]].
        intros x. rewrite Hq. cbn [In]. split.
        -- intros [H|(r' & H & Hf)]; eauto.
        -- intros [H|(r' & [E|H] & Hf)]; eauto.
           inversion E; subst. congruence.
Qed.

(** Lines 86-107: a record is in quarantine after validation exactly when
    it was there before or one of the three checks fails on it. *)
Lemma validate_spec (st : State) :
  df (validate st) = df st /\
  (forall x, In x (quarantined_records (validate st)) <->
     In x (quarantined_records st) \/
     exists r, nth_error (df st) x = Some r /\ failed_check r <> None) /\
  (NoDup (quarantined_records st) -> NoDup (quarantined_records (validate st))) /\
  (exists ext, quarantined_records (validate st) =
               quarantined_records st ++ ext).
Proof.
  unfold validate.
  destruct (validate_fold (iterrows (df st)) st) as (Hdf & Hq & Hn & Hp).
  split; [assumption|]. split; [|split; assumption].
  intros x. rewrite Hq. split.
  - intros [H|(r & H & Hf)]; [auto|]. right. exists r.
    split; [now apply in_iterrows | assumption].
  - intros [H|(r & H & Hf)]; [auto|]. right. exists r.
    split; [now apply in_iterrows | assumption].
Qed.

(** ** The state after each pass *)
Section Stages.

Variable to_datetime : cell -> parse_result.

Lemma nth_error_map_combine_seq {A B : Type} (f : nat * A -> B)
    (l : list A) (s i : nat) :
  nth_error (map f (combine (seq s (length l)) l)) i =
  option_map (fun x => f (s + i, x)) (nth_error l i).
Proof.
  revert s i. induction l as [|a l IH]; intros s [|i]; cbn; auto.
  - now rewrite Nat.add_0_r.
  - rewrite IH. now rewrite Nat.add_succ_r.
Qed.

Lemma after_dates_df (rows : list Signup) :
  df (after_dates to_datetime rows) =
  map (fun ir => mkRow (snd ir) (fst ir) false
                   (standardized_text to_datetime (snd ir)))
      (combine (seq 0 (length rows)) rows).
Proof.
  unfold after_dates, load. rewrite standardize_spec. cbn [df].
  rewrite map_map. apply map_ext. intros [i s]. cbn.
  unfold standardized_row, standardized_text. cbn.
  now destruct (to_datetime (signup_date s)).
Qed.

Lemma after_dates_nth (rows : list Signup) (i : nat) :
  nth_error (df (after_dates to_datetime rows)) i =
  option_map (fun s => mkRow s i false (standardized_text to_datetime s))
             (nth_error rows i).
Proof. rewrite after_dates_df. apply nth_error_map_combine_seq. Qed.

Lemma after_dates_length (rows : list Signup) :
  length (df (after_dates to_datetime rows)) = length rows.
Proof.
  rewrite after_dates_df, length_map, length_combine, length_seq. lia.
Qed.

Lemma after_dates_quarantine (rows : list Signup) (i : nat) :
  In i (quarantined_records (after_dates to_datetime rows)) <->
  exists s, nth_error rows i = Some s /\ parse_fails to_datetime s = true.
Proof.
  unfold after_dates, load. rewrite standardize_spec. cbn [quarantined_records].
  rewrite in_map_iff. split.
  - intros ([j r] & E & H). cbn in E. subst j.
    apply filter_In in H as [H Hf]. apply in_iterrows in H.
    rewrite nth_error_map_combine_seq in H.
    destruct (nth_error rows i) as [s|]; cbn in H; [|discriminate].
    inversion H; subst. exists s. cbn in Hf. auto.
  - intros (s & Hs & Hf).
    exists (i, mkRow s i false None). split; [reflexivity|].
    apply filter_In. split; [|exact Hf].
    apply in_iterrows. rewrite nth_error_map_combine_seq, Hs. reflexivity.
Qed.

Lemma after_dates_NoDup (rows : list Signup) :
  NoDup (quarantined_records (after_dates to_datetime rows)).
Proof.
  unfold after_dates, load. rewrite standardize_spec. cbn [quarantined_records].
  apply NoDup_map_fst_filter. rewrite iterrows_labels. apply seq_NoDup.
Qed.

Lemma after_dates_readable (rows : list Signup) :
  dates_readable (df (after_dates to_datetime rows)).
Proof.
  intros r s Hin Hs. apply In_nth_error in Hin as [i Hi].
  rewrite after_dates_nth in Hi.
  destruct (nth_error rows i) as [x|]; cbn in Hi; [|discriminate].
  inversion Hi; subst r. cbn in Hs. unfold standardized_text in Hs.
  destruct (to_datetime (signup_date x)) as [t| |]; try discriminate.
  inversion Hs; subst s. exists (ts_date t).
  apply PyDateFacts.strptime_strftime, ts_valid.
Qed.

(** A record pass one did not quarantine has a standardized date. *)
Lemma after_dates_dated (rows : list Signup) (i : nat) (s : Signup) :
  nth_error rows i = Some s ->
  ~ In i (quarantined_records (after_dates to_datetime rows)) ->
  exists t, to_datetime (signup_date s) = Parsed t /\
            standardized_text to_datetime s = Some (strftime (ts_date t)).
Proof.
  intros Hs Hq. unfold standardized_text.
  destruct (to_datetime (signup_date s)) as [t| |] eqn:E; [eauto| |];
    exfalso; apply Hq, after_dates_quarantine; exists s;
    unfold parse_fails; now rewrite E.
Qed.

(** The three passes never raise; the frame keeps every row, and only the
    flags change after pass one. *)
Lemma classify_stages (rows : list Signup) :
  exists st2,
    resolve_duplicates (after_dates to_datetime rows) = Ok st2 /\
    classify to_datetime rows = Ok (validate st2) /\
    map unflag (df st2) = map unflag (df (after_dates to_datetime rows)) /\
    (forall i r', nth_error (df st2) i = Some r' ->
       is_multi_plan r' = true <->
       exists k g, In (k, g) (email_groups (df (after_dates to_datetime rows))) /\
                   1 < length g /\
                   survivor (df (after_dates to_datetime rows))
                     (quarantined_records (after_dates to_datetime rows)) g
                   = Some i) /\
    (forall x, In x (quarantined_records st2) <->
       In x (quarantined_records (after_dates to_datetime rows)) \/
       exists k g, In (k, g) (email_groups (df (after_dates to_datetime rows))) /\
                   1 < length g /\ In x g /\
                   survivor (df (after_dates to_datetime rows))
                     (quarantined_records (after_dates to_datetime rows)) g
                   <> Some x) /\
    NoDup (quarantined_records st2) /\
    (exists ext, quarantined_records st2 =
                 quarantined_records (after_dates to_datetime rows) ++ ext).
Proof.
  set (st1 := after_dates to_datetime rows).
  destruct (resolve_groups_spec (email_groups (df st1)) st1)
    as (st2 & E & Hu & Hf & Hq & Hn & Hp).
  - apply email_groups_disjoint.
  - intros k g j Hin Hj. apply email_groups_In in Hin as [_ ->].
    eapply group_of_range; eauto.
  - apply after_dates_readable.
  - exists st2. split; [exact E|]. split.
    { unfold classify. fold (after_dates to_datetime rows). fold st1.
      unfold resolve_duplicates in *. now rewrite E. }
    split; [assumption|]. split; [|split; [assumption|split; [|assumption]]].
    + intros i r' H. destruct (Hf i r' H) as (r & Hr & Hiff).
      rewrite Hiff. subst st1. rewrite after_dates_nth in Hr.
      destruct (nth_error rows i); cbn in Hr; [|discriminate].
      inversion Hr; subst r. cbn. split; [|auto].
      intros [H1|H1]; [discriminate | assumption].
    + apply Hn, after_dates_NoDup.
Qed.

End Stages.

(** ** The final state and the two tables *)
Section Final.

Variable to_datetime : cell -> parse_result.

Lemma iloc_ok (rows : list Row) (l : list nat) :
  (forall x, In x l -> x < length rows) ->
  exists rs, iloc rows l = Ok rs /\ map Some rs = map (nth_error rows) l.
Proof.
  induction l as [|i l IH]; intros H; cbn [iloc].
  - exists []. auto.
  - destruct (nth_error rows i) as [r|] eqn:E.
    + destruct IH as (rs & -> & Hm); [intros x Hx; apply H; now right|].
      exists (r :: rs). cbn. now rewrite Hm, E.
    + apply nth_error_None in E. specialize (H i (or_introl eq_refl)). lia.
Qed.

Lemma clean_indices_In (st : State) (i : nat) :
  In i (clean_indices st) <->
  ~ In i (quarantined_records st) /\
  exists r, nth_error (df st) i = Some r /\
            signup_date_standardized r <> None.
Proof.
  unfold clean_indices. rewrite in_map_iff. split.
  - intros ([j r] & E & H). cbn in E. subst j.
    apply filter_In in H as [H Hc]. cbn in Hc.
    apply andb_true_iff in Hc as [H1 H2].
    apply negb_true_iff, mem_notin in H1. split; [assumption|].
    exists r. split; [now apply in_iterrows|].
    destruct (signup_date_standardized r); [discriminate | discriminate].
  - intros (Hq & r & Hn & Hs). exists (i, r). split; [reflexivity|].
    apply filter_In. split; [now apply in_iterrows|]. cbn.
    apply andb_true_iff. split.
    + now apply negb_true_iff, mem_notin.
    + now destruct (signup_date_standardized r).
Qed.

Lemma clean_indices_NoDup (st : State) : NoDup (clean_indices st).
Proof.
  unfold clean_indices. apply NoDup_map_fst_filter.
  rewrite iterrows_labels. apply seq_NoDup.
Qed.

(** What the three passes leave behind, in terms of the input rows. *)
Lemma classify_final (rows : list Signup) :
  exists st,
    classify to_datetime rows = Ok st /\
    length (df st) = length rows /\
    (forall i s, nth_error rows i = Some s ->
       exists r, nth_error (df st) i = Some r /\ fields r = s /\
                 original_index r = i /\
                 signup_date_standardized r = standardized_text to_datetime s) /\
    NoDup (quarantined_records st) /\
    (forall x, In x (quarantined_records st) -> x < length rows) /\
    (forall x, In x (quarantined_records (after_dates to_datetime rows)) ->
               In x (quarantined_records st)).
Proof.
  destruct (classify_stages to_datetime rows)
    as (st2 & E2 & Ec & Hu & Hf & Hq & Hn & Hp).
  destruct (validate_spec st2) as (Hdf & Hq3 & Hn3 & Hp3).
  exists (validate st2). split; [assumption|].
  assert (Hlen : length (df st2) = length rows).
  { rewrite (unflag_length _ _ Hu). apply after_dates_length. }
  split; [now rewrite Hdf|]. split; [|split; [auto|split]].
  - intros i s Hs. rewrite Hdf.
    destruct (nth_error (df st2) i) as [r|] eqn:Er.
    + destruct (unflag_nth _ _ _ _ Hu Er) as (r1 & Hr1 & Eu).
      rewrite after_dates_nth, Hs in Hr1. cbn in Hr1. inversion Hr1; subst r1.
      exists r. split; [reflexivity|]. unfold unflag in Eu. cbn in Eu.
      inversion Eu. auto.
    + apply nth_error_None in Er. rewrite Hlen in Er.
      apply nth_error_None in Er. congruence.
  - intros x Hx. apply Hq3 in Hx as [Hx|(r & Hr & _)].
    + apply Hq in Hx as [Hx|(k & g & Hin & _ & Hx & _)].
      * apply after_dates_quarantine in Hx as (s & Hs & _).
        apply nth_error_Some. congruence.
      * apply email_groups_In in Hin as [_ ->].
        apply group_of_range in Hx. now rewrite after_dates_length in Hx.
    + rewrite <- Hlen. apply nth_error_Some. congruence.
  - intros x Hx. apply Hq3. left. apply Hq. now left.
Qed.

(** [clean_signup_data] returns: both selections stay inside the frame. *)
Lemma clean_signup_data_runs (input : Sheet) :
  exists st crows qrows,
    classify to_datetime (body input) = Ok st /\
    map Some crows = map (nth_error (df st)) (clean_indices st) /\
    map Some qrows = map (nth_error (df st)) (quarantined_records st) /\
    clean_signup_data to_datetime input =
    Ok (project (header input) (clean_indices st) crows,
        project (header input) (quarantined_records st) qrows,
        mkSummary (length (body input)) (length (clean_indices st))
                  (length (quarantined_records st))).
Proof.
  destruct (classify_final (body input)) as (st & Ec & Hlen & _ & _ & Hr & _).
  destruct (iloc_ok (df st) (quarantined_records st)) as (qrows & Eq & Hq).
  { intros x Hx. rewrite Hlen. now apply Hr. }
  destruct (iloc_ok (df st) (clean_indices st)) as (crows & Ecl & Hc).
  { intros x Hx. apply clean_indices_In in Hx as (_ & r & Hn & _).
    apply nth_error_Some. congruence. }
  exists st, crows, qrows. split; [assumption|]. split; [assumption|].
  split; [assumption|].
  unfold clean_signup_data, quarantined_df, clean_df.
  rewrite Ec. cbn [bind]. rewrite Eq, Ecl. cbn [bind project data].
  rewrite !length_map.
  apply (f_equal (@length _)) in Hq, Hc. rewrite !length_map in Hq, Hc.
  now rewrite Hq, Hc.
Qed.

(** Every label is in exactly one of the two selections. *)
Lemma partition_labels (rows : list Signup) (st : State) :
  classify to_datetime rows = Ok st ->
  NoDup (clean_indices st ++ quarantined_records st) /\
  (forall i, In i (clean_indices st ++ quarantined_records st) <->
             i < length rows).
Proof.
  intros Ec.
  destruct (classify_final rows) as (st' & Ec' & Hlen & Hrow & Hn & Hr & H1).
  rewrite Ec in Ec'. inversion Ec'; subst st'. split.
  - apply NoDup_app; [apply clean_indices_NoDup | assumption |].
    intros x Hx Hq. apply clean_indices_In in Hx as [Hx _]. contradiction.
  - intros i. rewrite in_app_iff. split.
    + intros [H|H]; [|now apply Hr].
      apply clean_indices_In in H as (_ & r & Hn' & _).
      rewrite <- Hlen. apply nth_error_Some. congruence.
    + intros Hi. destruct (in_dec Nat.eq_dec i (quarantined_records st))
        as [Hq|Hq]; [now right | left].
      apply clean_indices_In. split; [assumption|].
      destruct (nth_error rows i) as [s|] eqn:Es.
      2:{ apply nth_error_None in Es. lia. }
      destruct (Hrow i s Es) as (r & Hr' & _ & _ & Hd).
      exists r. split; [assumption|].
      destruct (after_dates_dated to_datetime rows i s Es) as (t & _ & Et).
      { intros Hc. apply Hq, H1, Hc. }
      rewrite Hd, Et. discriminate.
Qed.

End Final.

(** ** The selected record of a group *)





Section Candidates.

Variable to_datetime : cell -> parse_result.




End Candidates.

(** ** Duplicate resolution, group by group *)
Section Groups.

Variable to_datetime : cell -> parse_result.
Variable rows : list Signup.

Let st1 := after_dates to_datetime rows.






End Groups.

(** * The claims *)

Lemma selection_length (rows : list Row) (sel : list Row)
    (labels : list nat) :
  map Some sel = map (nth_error rows) labels -> length sel = length labels.
Proof.
  intros E. apply (f_equal (@length _)) in E. now rewrite !length_map in E.
Qed.

Lemma full_cover_length (l : list nat) (n : nat) :
  NoDup l -> (forall i, In i l <-> i < n) -> length l = n.
Proof.
  intros Hn Hc. rewrite <- (length_seq n 0).
  apply Permutation_length, NoDup_Permutation;
    [assumption | apply seq_NoDup |].
  intros x. rewrite Hc, in_seq. lia.
Qed.



(** The email test of line 92, spelled out: the record passes only if some
    piece of the address after the first [@] is exactly ["."]. *)
Lemma email_rejected_iff (r : Row) :
  email_rejected r = false <->
  let e := lower (strip (py_str (email (fields r)))) in
  e <> "" /\ contains "@" e = true /\ In "." (tl (split "@" e)).
Proof.
  unfold email_rejected, is_empty, in_list. cbv zeta.
  rewrite !orb_false_iff, !negb_false_iff, String.eqb_neq, existsb_exists.
  split.
  - intros [[H1 H2] (x & Hx & E)]. apply String.eqb_eq in E. subst x. auto.
  - intros (H1 & H2 & H3). repeat split; auto. exists ".".
    split; [assumption | apply String.eqb_refl].
Qed.

(** C1: at the address [a@b.com], which contains [@] and whose domain
    contains a dot, the email check of the code fails and the record is
    quarantined. *)
Theorem C1_email_check_rejects_dotted_domain :
  contains "@" "a@b.com" = true /\
  split "@" "a@b.com" = ["a"; "b.com"] /\
  contains "." "b.com" = true /\
  failed_check
    (mkRow (mkSignup (Str "Alice") (Str "a@b.com") (Str "2023-01-01") [])
           0 false (Some "2023-01-01")) = Some EmailCheck /\
  exists clean quarantined,
    clean_signup_data iso_to_datetime valid_address =
    Ok (clean, quarantined, mkSummary 1 0 1) /\
    index clean = [] /\ index quarantined = [0].
Proof.
  repeat split; try reflexivity.
  do 2 eexists. split; [vm_compute; reflexivity | split; reflexivity].
Qed.

(** C6: on the two rows for [a@b.com] dated 2023-01-01 and 2023-06-15 the
    code leaves the clean table empty; both rows are quarantined, the later
    one with its multi-plan flag set. *)
Theorem C6_two_signups_both_quarantined :
  clean_signup_data iso_to_datetime two_signups =
  Ok (mkTable ["name"; "email"; "signup_date"; "is_multi_plan"; "signup_date"]
        [] [],
      mkTable ["name"; "email"; "signup_date"; "is_multi_plan"; "signup_date"]
        [0; 1]
        [ [VCell (Str "Alice"); VCell (Str "a@b.com");
           VCell (Str "2023-01-01"); VBool false; VObj (Some "2023-01-01")];
          [VCell (Str "Alice"); VCell (Str "a@b.com");
           VCell (Str "2023-06-15"); VBool true; VObj (Some "2023-06-15")] ],
      mkSummary 2 0 2).
Proof. vm_compute. reflexivity. Qed.






(** C3: the output tables carry two columns labelled [signup_date], the
    raw one and the standardized one, and [is_multi_plan] is not the last
    column. *)
Theorem C3_output_has_two_signup_date_columns :
  clean_signup_data iso_to_datetime unpadded_date =
  Ok (mkTable ["name"; "email"; "signup_date"; "is_multi_plan"; "signup_date"]
        [0]
        [ [VCell (Str "Alice"); VCell (Str "a@."); VCell (Str "2023-6-5");
           VBool false; VObj (Some "2023-06-05")] ],
      mkTable ["name"; "email"; "signup_date"; "is_multi_plan"; "signup_date"]
        [] [],
      mkSummary 1 1 0) /\
  count_occ string_dec
    (rename (original_columns (header unpadded_date))) "signup_date" = 2.
Proof. split; vm_compute; reflexivity. Qed.









(** ** Running the pipeline again on its clean output *)

Lemma clean_records_In (st : State) (r : Row) :
  In r (clean_records st) <->
  exists i, nth_error (df st) i = Some r /\
            ~ In i (quarantined_records st) /\
            signup_date_standardized r <> None.
Proof.
  unfold clean_records. rewrite in_map_iff. split.
  - intros ([i r'] & E & H). cbn in E. subst r'.
    apply filter_In in H as [H Hc]. cbn in Hc.
    apply andb_true_iff in Hc as [H1 H2].
    exists i. split; [now apply in_iterrows|]. split.
    + now apply mem_notin, negb_true_iff.
    + destruct (signup_date_standardized r); [discriminate | discriminate].
  - intros (i & Hn & Hq & Hs). exists (i, r). split; [reflexivity|].
    apply filter_In. split; [now apply in_iterrows|]. cbn.
    apply andb_true_iff. split.
    + now apply negb_true_iff, mem_notin.
    + now destruct (signup_date_standardized r).
Qed.

Lemma iloc_iterrows (rows : list Row) (l : list (nat * Row)) :
  incl l (iterrows rows) -> iloc rows (map fst l) = Ok (map snd l).
Proof.
  induction l as [|[i r] l IH]; intros H; cbn [map iloc fst snd];
    [reflexivity|].
  assert (Hi : nth_error rows i = Some r)
    by (apply in_iterrows, H; now left).
  rewrite Hi, IH; [reflexivity|]. intros x Hx. apply H. now right.
Qed.

(** The clean table is built from [clean_records]. *)
Lemma clean_df_records (hdr : list string) (st : State) :
  clean_df hdr st = Ok (project hdr (clean_indices st) (clean_records st)).
Proof.
  unfold clean_df, clean_indices, clean_records.
  rewrite iloc_iterrows; [reflexivity|].
  intros x Hx. now apply filter_In in Hx as [Hx _].
Qed.

(** The validator reads the name, the email and the standardized date. *)
Lemma failed_check_ext (r r' : Row) :
  record_view r = record_view r' -> failed_check r = failed_check r'.
Proof.
  unfold record_view. intros E. inversion E as [[E1 E2 E3]].
  unfold failed_check, email_rejected, name_rejected, important_blank.
  now rewrite E1, E2, E3.
Qed.

Lemma all_absent_nil {A : Type} (l : list A) :
  (forall x, ~ In x l) -> l = [].
Proof.
  destruct l as [|a l]; [reflexivity|]. intros H.
  exfalso. apply (H a). now left.
Qed.

Lemma map_snd_combine_seq {A : Type} (l : list A) (s : nat) :
  map snd (combine (seq s (length l)) l) = l.
Proof.
  revert s. induction l as [|a l IH]; intros s; cbn; [|rewrite IH]; auto.
Qed.

Section Rerun.

Variable to_datetime : cell -> parse_result.

(** A record of the clean table passed all three checks and carries the
    text of a parsed date. *)
Lemma clean_record_passes (rows : list Signup) (st : State) (r : Row) :
  classify to_datetime rows = Ok st ->
  In r (clean_records st) ->
  failed_check r = None /\
  exists t, signup_date_standardized r = Some (strftime (ts_date t)).
Proof.
  intros Ec Hr. apply clean_records_In in Hr as (i & Hn & Hq & Hs).
  destruct (classify_stages to_datetime rows) as (st2 & _ & Ec2 & _).
  rewrite Ec in Ec2. inversion Ec2; subst st.
  destruct (validate_spec st2) as (Hdf & Hv & _).
  split.
  - destruct (failed_check r) as [c|] eqn:Ef; [|reflexivity].
    exfalso. apply Hq, Hv. right. exists r.
    split; [now rewrite <- Hdf | congruence].
  - destruct (classify_final to_datetime rows)
      as (st & Ec' & Hlen & Hrow & _).
    rewrite Ec in Ec'. inversion Ec'; subst st.
    destruct (nth_error rows i) as [s|] eqn:Es.
    + destruct (Hrow i s Es) as (r' & Hr' & _ & _ & Hd).
      assert (r' = r) by congruence. subst r'.
      rewrite Hd in Hs |- *. unfold standardized_text in *.
      destruct (to_datetime (signup_date s)) as [t| |]; try congruence. eauto.
    + apply nth_error_None in Es. rewrite <- Hlen in Es.
      apply nth_error_None in Es. congruence.
Qed.

End Rerun.

Lemma singleton_group (g : list nat) :
  NoDup g -> (forall a b, In a g -> In b g -> a = b) -> length g <= 1.
Proof.
  intros Hn Heq. destruct g as [|a [|b g]]; cbn; try lia.
  exfalso. inversion Hn as [|x xs Hna _]; subst. apply Hna.
  rewrite (Heq a b); [now left | now left | right; now left].
Qed.

(** C9, as stated, fails: the second run resets the multi-plan flag, so the
    clean table it produces differs from the one it was given. *)
Lemma C9_rerun_resets_flag :
  exists st st',
    classify iso_to_datetime (body repeat_signups) = Ok st /\
    NoDup (map (fun r => email (fields r)) (clean_records st)) /\
    classify iso_to_datetime (map reingest (clean_records st)) = Ok st' /\
    map output_view (clean_records st) =
      [(Str "Alice", Str "a@.", Some "2023-06-15", true)] /\
    map output_view (clean_records st') =
      [(Str "Alice", Str "a@.", Some "2023-06-15", false)] /\
    map output_view (clean_records st') <> map output_view (clean_records st).
Proof.
  do 2 eexists. split; [vm_compute; reflexivity|].
  split; [vm_compute; repeat constructor; intros []|].
  split; [vm_compute; reflexivity|].
  split; [reflexivity|]. split; [reflexivity|]. vm_compute. discriminate.
Qed.

(** C9, amended: when the clean table holds no two records with the same
    email and the parser reads a standardized date back as the same day,
    running the pipeline on the clean records quarantines nothing and
    yields the same records in the same order, with the same name, email
    and standardized date; every multi-plan flag is reset to false. *)
Theorem C9_rerun_keeps_clean_records
    (to_datetime : cell -> parse_result) (rows : list Signup) (st : State) :
  (forall t, exists t',
     to_datetime (Str (strftime (ts_date t))) = Parsed t' /\
     ts_date t' = ts_date t) ->
  classify to_datetime rows = Ok st ->
  NoDup (map (fun r => email (fields r)) (clean_records st)) ->
  exists st',
    classify to_datetime (map reingest (clean_records st)) = Ok st' /\
    quarantined_records st' = [] /\
    map record_view (clean_records st') = map record_view (clean_records st) /\
    (forall r, In r (clean_records st') -> is_multi_plan r = false).
Proof.
  intros Hiso Ec Hnd.
  set (C := clean_records st) in *. set (rows2 := map reingest C).
  destruct (classify_stages to_datetime rows2)
    as (st2 & E2 & Ec2 & Hu & Hf & Hq & _).
  destruct (validate_spec st2) as (Hdf & Hv & _).
  destruct (classify_final to_datetime rows2)
    as (st' & Ec' & Hlen & Hrow & _).
  rewrite Ec2 in Ec'. inversion Ec'; subst st'. clear Ec'.
  assert (Hrows2 : forall x s, nth_error rows2 x = Some s ->
            exists r, nth_error C x = Some r /\ s = reingest r).
  { intros x s Hs. unfold rows2 in Hs. rewrite nth_error_map in Hs.
    destruct (nth_error C x) as [r|]; cbn in Hs; [|discriminate].
    inversion Hs. eauto. }
  assert (Hstd : forall x r, nth_error C x = Some r ->
            standardized_text to_datetime (reingest r) =
              signup_date_standardized r /\
            parse_fails to_datetime (reingest r) = false).
  { intros x r Hr.
    destruct (clean_record_passes to_datetime rows st r Ec
                (nth_error_In _ _ Hr)) as (_ & t & Et).
    destruct (Hiso t) as (t' & Ep & Ed).
    unfold standardized_text, parse_fails, reingest. cbn [signup_date].
    rewrite Et, Ep, Ed. auto. }
  assert (Hq1 : forall x,
            ~ In x (quarantined_records (after_dates to_datetime rows2))).
  { intros x Hx. apply after_dates_quarantine in Hx as (s & Hs & Hfail).
    destruct (Hrows2 x s Hs) as (r & Hr & ->).
    destruct (Hstd x r Hr) as [_ Hok]. congruence. }
  assert (Hsmall : forall k g,
            In (k, g) (email_groups (df (after_dates to_datetime rows2))) ->
            length g <= 1).
  { intros k g Hin. apply email_groups_In in Hin as [_ ->].
    apply singleton_group; [apply group_of_NoDup|].
    assert (Hmail : forall a, In a (group_of (df (after_dates to_datetime rows2)) k) ->
              nth_error (map (fun r => email (fields r)) C) a = Some (Str k)).
    { intros a Ha. apply group_of_In in Ha as (r1 & Hr1 & Hk).
      rewrite after_dates_nth in Hr1.
      destruct (nth_error rows2 a) as [s|] eqn:Es; cbn in Hr1; [|discriminate].
      inversion Hr1; subst r1. cbn in Hk.
      destruct (Hrows2 a s Es) as (r & Hr & ->). cbn in Hk.
      rewrite nth_error_map, Hr. cbn. now rewrite Hk. }
    intros a b Ha Hb.
    apply (proj1 (NoDup_nth_error _) Hnd).
    - apply nth_error_Some. rewrite (Hmail a Ha). discriminate.
    - now rewrite (Hmail a Ha), (Hmail b Hb). }
  assert (Hq2 : forall x, ~ In x (quarantined_records st2)).
  { intros x Hx. apply Hq in Hx as [Hx|(k & g & Hin & Hl & _)].
    - exact (Hq1 x Hx).
    - specialize (Hsmall k g Hin). lia. }
  assert (Hview : forall x r, nth_error C x = Some r ->
            exists r', nth_error (df st2) x = Some r' /\
                       record_view r' = record_view r).
  { intros x r Hr.
    assert (Hs : nth_error rows2 x = Some (reingest r))
      by (unfold rows2; rewrite nth_error_map, Hr; reflexivity).
    destruct (Hrow x _ Hs) as (r' & Hr' & Hfs & _ & Hd).
    rewrite Hdf in Hr'. exists r'. split; [assumption|].
    unfold record_view. rewrite Hfs, Hd. cbn.
    now rewrite (proj1 (Hstd x r Hr)). }
  assert (Hrange : forall x r', nth_error (df st2) x = Some r' ->
            exists r, nth_error C x = Some r).
  { intros x r' Hx. destruct (nth_error C x) as [r|] eqn:Er; [eauto|].
    apply nth_error_None in Er.
    assert (x < length (df st2)) by (apply nth_error_Some; congruence).
    rewrite Hdf in Hlen. unfold rows2 in Hlen. rewrite length_map in Hlen. lia. }
  assert (Hq3 : quarantined_records (validate st2) = []).
  { apply all_absent_nil. intros x Hx.
    apply Hv in Hx as [Hx|(r' & Hr' & Hfail)]; [exact (Hq2 x Hx)|].
    destruct (Hrange x r' Hr') as [r Hr].
    destruct (Hview x r Hr) as (r'' & Hr'' & Ev).
    assert (r'' = r') by congruence. subst r''.
    apply Hfail. rewrite (failed_check_ext _ _ Ev).
    exact (proj1 (clean_record_passes to_datetime rows st r Ec
                    (nth_error_In _ _ Hr))). }
  assert (Hall : clean_records (validate st2) = df st2).
  { unfold clean_records. rewrite Hq3, Hdf.
    rewrite forallb_filter_id; [apply map_snd_combine_seq|].
    apply forallb_forall. intros [i r'] Hin. cbn.
    apply in_iterrows in Hin. destruct (Hrange i r' Hin) as [r Hr].
    destruct (Hview i r Hr) as (r'' & Hr'' & Ev).
    assert (r'' = r') by congruence. subst r''.
    destruct (clean_record_passes to_datetime rows st r Ec
                (nth_error_In _ _ Hr)) as (_ & t & Et).
    apply (f_equal snd) in Ev. cbn in Ev. now rewrite Ev, Et. }
  exists (validate st2). split; [exact Ec2|]. split; [exact Hq3|].
  rewrite Hall. split.
  - apply nth_error_ext. intros n. rewrite !nth_error_map.
    destruct (nth_error C n) as [r|] eqn:Er.
    + destruct (Hview n r Er) as (r' & -> & Ev). cbn. now rewrite Ev.
    + destruct (nth_error (df st2) n) as [r'|] eqn:Er'; [|reflexivity].
      destruct (Hrange n r' Er') as [r Hr]. congruence.
  - intros r' Hin. apply In_nth_error in Hin as [i Hi].
    destruct (is_multi_plan r') eqn:Em; [|reflexivity].
    apply (Hf i r' Hi) in Em as (k & g & Hin & Hl & _).
    specialize (Hsmall k g Hin). lia.
Qed.

(** An instance: the two signups of [repeat_signups] leave one clean
    record, and a second run keeps it. *)
Lemma iso_reads_back (t : Timestamp) :
  exists t',
    iso_to_datetime (Str (strftime (ts_date t))) = Parsed t' /\
    ts_date t' = ts_date t.
Proof.
  unfold iso_to_datetime.
  rewrite (PyDateFacts.strptime_strftime (ts_date t) (ts_valid t)).
  generalize (eq_refl (valid_date (ts_date t))).
  generalize (valid_date (ts_date t)) at 2 3.
  intros b Hb. destruct b.
  - eexists. split; reflexivity.
  - rewrite (ts_valid t) in Hb. discriminate.
Qed.

Lemma C9_rerun_witness :
  exists st,
    classify iso_to_datetime (body repeat_signups) = Ok st /\
    exists st',
      classify iso_to_datetime (map reingest (clean_records st)) = Ok st' /\
      quarantined_records st' = [] /\
      map record_view (clean_records st') =
        map record_view (clean_records st) /\
      (forall r, In r (clean_records st') -> is_multi_plan r = false).
Proof.
  eexists. split; [vm_compute; reflexivity|].
  apply (C9_rerun_keeps_clean_records iso_to_datetime (body repeat_signups)).
  - exact iso_reads_back.
  - vm_compute. reflexivity.
  - vm_compute. constructor; [intros [] | constructor].
Defined.

(** * Further properties of the pipeline *)

(** ** Labels come in row order *)





(** ** Which records the duplicate resolver keeps *)
Section Resolver.

Variable to_datetime : cell -> parse_result.
Variable rows : list Signup.








End Resolver.

(** ** Membership of the clean table *)
Section Membership.

Variable to_datetime : cell -> parse_result.
Variable rows : list Signup.




End Membership.





(** ** The order of the quarantined table *)









(** ** Blank required cells *)



(** ** The email test on an address with one [@] *)

Lemma prefix_char (c a : ascii) (s : string) :
  String.prefix (String c "") (String a s) = Ascii.eqb c a.
Proof.
  cbn. destruct (ascii_dec c a) as [->|Hne].
  - rewrite Ascii.eqb_refl. now destruct s.
  - symmetry. now apply Ascii.eqb_neq.
Qed.

Lemma split_without (c : ascii) (s : string) :
  contains (String c "") s = false -> split c s = [s].
Proof.
  induction s as [|a s IH]; [reflexivity|].
  cbn [contains split]. rewrite prefix_char, orb_false_iff.
  intros [Hc Hs]. rewrite Ascii.eqb_sym, Hc, (IH Hs). reflexivity.
Qed.

Lemma split_at (c : ascii) (local dom : string) :
  contains (String c "") local = false ->
  split c (String.append local (String c dom)) = local :: split c dom.
Proof.
  induction local as [|a local IH]; cbn [String.append contains split].
  - intros _. now rewrite Ascii.eqb_refl.
  - rewrite prefix_char, orb_false_iff. intros [Hc Hs].
    rewrite Ascii.eqb_sym, Hc, (IH Hs). reflexivity.
Qed.

Lemma contains_at (c : ascii) (local dom : string) :
  contains (String c "") (String.append local (String c dom)) = true.
Proof.
  induction local as [|a local IH]; cbn [String.append contains].
  - now rewrite prefix_char, Ascii.eqb_refl.
  - rewrite IH. apply orb_true_r.
Qed.

(** X6: on an address of the shape [local@domain], with no further [@],
    the email test of line 92 rejects the record unless the domain is
    exactly ["."]. *)
Theorem X6_email_check_on_one_at (r : Row) (local dom : string) :
  lower (strip (py_str (email (fields r)))) =
    String.append local (String "@" dom) ->
  contains "@" local = false ->
  contains "@" dom = false ->
  email_rejected r = negb (String.eqb dom ".").
Proof.
  intros He Hl Hd. unfold email_rejected. rewrite He.
  rewrite contains_at, split_at by assumption.
  rewrite split_without by assumption.
  rewrite (String.eqb_sym dom ".").
  destruct local; cbn; now rewrite orb_false_r.
Qed.

Lemma X6_email_check_witness :
  email_rejected
    (mkRow (mkSignup (Str "Alice") (Str " A@b.com ") (Str "2023-01-01") [])
           0 false None)
  = negb (String.eqb "b.com" ".").
Proof.
  apply (X6_email_check_on_one_at _ "a" "b.com"); reflexivity.
Defined.

(** ** The cells of the two tables *)






(** ** The entry point *)
Section MainFacts.

Variable to_datetime : cell -> parse_result.

Lemma main_on_sheet (fs : filesystem) (sheet : Sheet) :
  fs "signups.xls" = Some (Excel sheet) ->
  exists clean quarantined summary,
    clean_signup_data to_datetime sheet = Ok (clean, quarantined, summary) /\
    total_rows summary = length (body sheet) /\
    length (data clean) + length (data quarantined) = length (body sheet) /\
    main to_datetime fs =
    (write (write fs "members_final.csv" (to_csv clean))
           "quarantine.csv" (to_csv quarantined),
     if length (body sheet) =? 0 then Failed ZeroDivisionError else Returned).
Proof.
  intros Hf.
  destruct (clean_signup_data_runs to_datetime sheet)
    as (st & crows & qrows & Ec & Hc & Hq & E).
  destruct (partition_labels to_datetime (body sheet) st Ec) as [Hnd Hcov].
  pose proof (full_cover_length _ _ Hnd Hcov) as Hlen.
  rewrite length_app in Hlen.
  pose proof (selection_length _ _ _ Hc) as Lc.
  pose proof (selection_length _ _ _ Hq) as Lq.
  do 3 eexists. split; [exact E|]. cbn [total_rows project data].
  rewrite !length_map. split; [reflexivity|]. split; [lia|].
  unfold main. rewrite Hf, E. cbn [total_rows].
  now destruct (length (body sheet) =? 0).
Qed.

End MainFacts.

(** X8: [main] writes nothing but its two output files, and when the input
    file is missing it writes nothing at all and returns. *)
Theorem X8_main_touches_only_its_outputs
    (to_datetime : cell -> parse_result) (fs : filesystem) (path : string) :
  path <> "members_final.csv" -> path <> "quarantine.csv" ->
  fst (main to_datetime fs) path = fs path /\
  (fs "signups.xls" = None -> main to_datetime fs = (fs, Returned)).
Proof.
  intros H1 H2. split.
  - destruct (fs "signups.xls") as [[sheet|cols rows]|] eqn:Ef.
    + destruct (main_on_sheet to_datetime fs sheet Ef)
        as (clean & quarantined & summary & _ & _ & _ & ->).
      cbn [fst]. unfold write.
      apply String.eqb_neq in H1, H2. now rewrite H1, H2.
    + unfold main. now rewrite Ef.
    + unfold main. now rewrite Ef.
  - intros Ef. unfold main. now rewrite Ef.
Qed.

Lemma X8_main_witness :
  fst (main iso_to_datetime empty_directory) "signups.xls"
    = empty_directory "signups.xls" /\
  (empty_directory "signups.xls" = None ->
   main iso_to_datetime empty_directory = (empty_directory, Returned)).
Proof.
  apply (X8_main_touches_only_its_outputs iso_to_datetime empty_directory
           "signups.xls"); discriminate.
Defined.




